(** * Admission webhook: whitelist validation of container images

    A shallow embedding of [pkg/webhook.go]: the HTTP [Handler] of the
    [WebhookServer] and its [validate] method, which admits a pod only when
    every container image starts with one of the whitelisted registries. *)

From Stdlib Require Import String Ascii List ZArith Bool Lia Permutation.
From Stdlib Require Import DecimalString.
Import ListNotations.
Open Scope string_scope.
Open Scope Z_scope.

(** ** Go values used by the program *)

Module Go.

(** [int32(x)] on an [int]: the low 32 bits, read as a signed number. *)
Definition int32 (x : Z) : Z := (x + 2 ^ 31) mod 2 ^ 32 - 2 ^ 31.

(** [strings.HasPrefix(s, prefix)]:
    [len(s) >= len(prefix) && s[:len(prefix)] == prefix]. *)
Definition HasPrefix (s prefix : string) : bool :=
  (String.length prefix <=? String.length s)%nat
  && String.eqb (substring 0 (String.length prefix) s) prefix.

(** [prefix] is a literal prefix of [s]. *)
Definition IsPrefix (prefix s : string) : Prop :=
  exists rest, s = prefix ++ rest.

(** [fmt]'s [%v] verb on a [[]string]: the elements separated by one
    space, between square brackets. *)
Definition fmt_v (l : list string) : string :=
  "[" ++ String.concat " " l ++ "]".

(** A call either returns or panics (run-time error). *)
Inductive exec (A : Type) : Type :=
| Return (a : A)
| Panic (msg : string).
Arguments Return {A} a.
Arguments Panic {A} msg.

Definition bind {A B} (m : exec A) (k : A -> exec B) : exec B :=
  match m with
  | Return a => k a
  | Panic msg => Panic msg
  end.

(** Dereferencing a pointer: a nil pointer panics. *)
Definition deref {A} (p : option A) : exec A :=
  match p with
  | Some a => Return a
  | None => Panic "invalid memory address or nil pointer dereference"
  end.

End Go.

Import Go.

Notation "x <- m ;; k" := (bind m (fun x => k))
  (at level 61, m at next level, right associativity).

(** ** HTTP status codes ([net/http]) *)

Definition StatusOK : Z := 200.
Definition StatusBadRequest : Z := 400.
Definition StatusForbidden : Z := 403.
Definition StatusInternalServerError : Z := 500.

(** ** Data model *)

(** [corev1.Container], [corev1.PodSpec], [corev1.Pod]: the fields read. *)
Record Container := { Name : string; Image : string }.
Record PodSpec := { Containers : list Container }.
Record Pod := { Spec : PodSpec }.

(** [metav1.Status]. *)
Record Status := { Message : string; Code : Z }.

(** [admissionV1.AdmissionRequest]; [Object_Raw] is [Object.Raw]. *)
Record AdmissionRequest := {
  UID : string;
  Kind_Kind : string;
  Namespace : string;
  Req_Name : string;
  Object_Raw : string
}.

(** [admissionV1.AdmissionResponse]; [Result] is a pointer. *)
Record AdmissionResponse := {
  Resp_UID : string;
  Allowed : bool;
  Result : option Status
}.

(** [admissionV1.AdmissionReview]; [Request] and [Response] are pointers. *)
Record AdmissionReview := {
  APIVersion : string;
  Kind : string;
  Request : option AdmissionRequest;
  Response : option AdmissionResponse
}.

(** The zero value [admissionV1.AdmissionReview{}]. *)
Definition emptyReview : AdmissionReview :=
  {| APIVersion := ""; Kind := ""; Request := None; Response := None |}.

(** [WebhookServer]: only the whitelist is read by the handlers. *)
Record WebhookServer := { WhiteListRegistries : list string }.

(** ** The whitelist loop of [validate] *)

(** The inner loop: [whitelisted] starts [false] and is set on every
    registry that is a prefix of the image; the loop does not stop early. *)
Definition whitelisted (regs : list string) (image : string) : bool :=
  fold_left (fun w reg => if HasPrefix image reg then true else w) regs false.

(** The message of a rejection. *)
Definition untrusted_message (image : string) (regs : list string) : string :=
  image ++ " image comes from untrusted registry! Only images form "
        ++ fmt_v regs ++ " are allowed.".

(** The outer loop over [pod.Spec.Containers], on the local variables
    [(allowed, code, message)]; [break] leaves the remaining containers
    unvisited. *)
Fixpoint check_containers (regs : list string) (cs : list Container)
    (st : bool * Z * string) : bool * Z * string :=
  match cs with
  | [] => st
  | container :: rest =>
      if negb (whitelisted regs (Image container))
      then (false, StatusForbidden, untrusted_message (Image container) regs)
      else check_containers regs rest st
  end.

(** The response built once the pod is decoded (lines 129-151). *)
Definition evaluate (s : WebhookServer) (pod : Pod) : AdmissionResponse :=
  let '(allowed, code, message) :=
    check_containers (WhiteListRegistries s) (Containers (Spec pod))
                     (true, 200, "") in
  {| Resp_UID := "";
     Allowed := allowed;
     Result := Some {| Code := int32 code; Message := message |} |}.

(** ** Specification of the loop *)

(** The first container, in order, that fails the whitelist. *)
Fixpoint first_untrusted (regs : list string) (cs : list Container)
  : option Container :=
  match cs with
  | [] => None
  | c :: rest =>
      if whitelisted regs (Image c) then first_untrusted regs rest else Some c
  end.

(** ** External collaborators *)

(** The three library calls the handler relies on, as an interface:
    - [Decode body] is [deserializer.Decode(body, nil, &review)] on a zero
      [review]: the object left in [review] and the error, if any (a failed
      decode may leave the object partly filled);
    - [Unmarshal_Pod raw] is [json.Unmarshal(raw, &pod)];
    - [Marshal review] is [json.Marshal(review)]. *)
Class Codec := {
  Decode : string -> AdmissionReview * option string;
  Unmarshal_Pod : string -> Pod + string;
  Marshal : AdmissionReview -> string + string
}.

(** ** HTTP request and response writer *)

(** [http.Request]: [Body] is [None] for a nil body, otherwise what
    [ioutil.ReadAll] returns on it (data and error); [Header] maps a
    canonical key to its values. *)
Record HttpRequest := {
  Body : option (string * option string);
  Header : list (string * list string);
  URL_Path : string
}.

(** [Header.Get(key)]: the first value of [key], or the empty string. *)
Fixpoint Header_Get (h : list (string * list string)) (key : string) : string :=
  match h with
  | [] => ""
  | (k, vs) :: rest =>
      if String.eqb k key
      then match vs with v :: _ => v | [] => "" end
      else Header_Get rest key
  end.

(** An in-memory [http.ResponseWriter]: the status line once it is sent,
    and the body bytes written so far. *)
Record ResponseWriter := { status : option Z; written : string }.

Definition newResponseWriter : ResponseWriter :=
  {| status := None; written := "" |}.

(** [w.WriteHeader(code)]: the first call fixes the status. *)
Definition WriteHeader (w : ResponseWriter) (code : Z) : ResponseWriter :=
  match status w with
  | Some _ => w
  | None => {| status := Some code; written := written w |}
  end.

(** [w.Write(data)]: sends the header with status 200 when none was sent
    yet, then appends the data; the in-memory writer never fails. *)
Definition Write (w : ResponseWriter) (data : string)
  : ResponseWriter * option string :=
  let w' := WriteHeader w StatusOK in
  ({| status := status w'; written := written w' ++ data |}, None).

Definition newline : string := String (ascii_of_nat 10) EmptyString.

(** [http.Error(w, msg, code)]: the status, then the message and a newline. *)
Definition http_Error (w : ResponseWriter) (msg : string) (code : Z)
  : ResponseWriter :=
  fst (Write (WriteHeader w code) (msg ++ newline)).

(** The status the client receives once the handler has returned: the
    server sends 200 when the handler wrote nothing. *)
Definition outer_status (w : ResponseWriter) : Z :=
  match status w with
  | Some code => code
  | None => StatusOK
  end.

(** ** The handlers *)

Section Handlers.

Context {codec : Codec}.

(** [WebhookServer.validate]. The log call at its head reads
    [req.Kind.Kind], [req.Namespace], [req.Name] and [req.UID] through the
    pointer [req]. *)
Definition validate (s : WebhookServer) (ar : AdmissionReview)
  : exec AdmissionResponse :=
  let req := Request ar in
  r <- deref req ;;
  match Unmarshal_Pod (Object_Raw r) with
  | inr err =>
      Return {| Resp_UID := "";
                Allowed := false;
                Result := Some {| Code := int32 StatusBadRequest;
                                  Message := err |} |}
  | inl pod => Return (evaluate s pod)
  end.

(** Lines 36-41: the body read from the request. *)
Definition read_body (request : HttpRequest) : string :=
  match Body request with
  | Some (data, None) => data
  | _ => ""
  end.

(** Lines 57-74: decode the body and dispatch on the path. The result is
    the decoded review and the pointer [admissionResponse]. *)
Definition dispatch (s : WebhookServer) (path body : string)
  : exec (AdmissionReview * option AdmissionResponse) :=
  let '(requestedAdmissionReview, err) := Decode body in
  match err with
  | Some e =>
      Return (requestedAdmissionReview,
              Some {| Resp_UID := "";
                      Allowed := false;
                      Result := Some {| Message := e;
                                        Code := StatusInternalServerError |} |})
  | None =>
      if String.eqb path "/mutate" then
        Return (requestedAdmissionReview, None)
      else if String.eqb path "/validate" then
        resp <- validate s requestedAdmissionReview ;;
        Return (requestedAdmissionReview, Some resp)
      else Return (requestedAdmissionReview, None)
  end.

(** Lines 77-87: the review sent back. *)
Definition build_response (requestedAdmissionReview : AdmissionReview)
    (admissionResponse : option AdmissionResponse) : AdmissionReview :=
  {| APIVersion := APIVersion requestedAdmissionReview;
     Kind := Kind requestedAdmissionReview;
     Request := None;
     Response :=
       match admissionResponse with
       | Some resp =>
           match Request requestedAdmissionReview with
           | Some req => Some {| Resp_UID := UID req;
                                 Allowed := Allowed resp;
                                 Result := Result resp |}
           | None => Some resp
           end
       | None => None
       end |}.

(** Lines 57-87: the review [responseAdmissionReview] handed to the
    encoder. *)
Definition reply (s : WebhookServer) (path body : string)
  : exec AdmissionReview :=
  decoded <- dispatch s path body ;;
  let '(requestedAdmissionReview, admissionResponse) := decoded in
  Return (build_response requestedAdmissionReview admissionResponse).

(** Lines 89-103: encode and write. *)
Definition send (writer : ResponseWriter)
    (responseAdmissionReview : AdmissionReview) : ResponseWriter :=
  match Marshal responseAdmissionReview with
  | inr err =>
      http_Error writer ("Can't encode response: " ++ err) StatusBadRequest
  | inl respBytes =>
      match Write writer respBytes with
      | (w, Some err) =>
          http_Error w ("Can't write response: " ++ err) StatusBadRequest
      | (w, None) => w
      end
  end.

(** [WebhookServer.Handler]. *)
Definition Handler (s : WebhookServer) (writer : ResponseWriter)
    (request : HttpRequest) : exec ResponseWriter :=
  let body := read_body request in
  if (String.length body =? 0)%nat then
    Return (http_Error writer "empty data body" StatusBadRequest)
  else
    let contentType := Header_Get (Header request) "Content-Type" in
    if negb (String.eqb contentType "application/json") then
      (* only logged: nothing is written to [writer] *)
      Return writer
    else
      responseAdmissionReview <- reply s (URL_Path request) body ;;
      Return (send writer responseAdmissionReview).

End Handlers.

(** ** Properties of a reply *)


(** Two decisions with the same verdict: the same allow flag and code,
    and either both messages are empty or both reject the same image, each
    listing its own whitelist. *)
Definition same_verdict (regs1 regs2 : list string)
    (r1 r2 : AdmissionResponse) : Prop :=
  exists st1 st2,
    Result r1 = Some st1 /\ Result r2 = Some st2
    /\ Resp_UID r1 = Resp_UID r2
    /\ Allowed r1 = Allowed r2
    /\ Code st1 = Code st2
    /\ ((Message st1 = "" /\ Message st2 = "")
        \/ exists image,
             Message st1 = untrusted_message image regs1
             /\ Message st2 = untrusted_message image regs2).

(** ** Concrete inputs *)

Module Examples.

Definition quote : string := String (ascii_of_nat 34) EmptyString.

Definition render_string (x : string) : string := quote ++ x ++ quote.

Definition render_Z (x : Z) : string := NilZero.string_of_int (Z.to_int x).

Definition render_status (st : Status) : string :=
  "{message:" ++ render_string (Message st)
    ++ ",code:" ++ render_Z (Code st) ++ "}".

Definition render_response (r : AdmissionResponse) : string :=
  "{uid:" ++ render_string (Resp_UID r)
    ++ ",allowed:" ++ (if Allowed r then "true" else "false")
    ++ match Result r with
       | Some st => ",status:" ++ render_status st
       | None => ""
       end ++ "}".

(** A plain rendering of a review, field by field. *)
Definition render_review (r : AdmissionReview) : string :=
  "{kind:" ++ render_string (Kind r)
    ++ ",apiVersion:" ++ render_string (APIVersion r)
    ++ match Response r with
       | Some resp => ",response:" ++ render_response resp
       | None => ""
       end ++ "}".

(** A codec whose decoders return fixed results, whatever the bytes. *)
Definition fixedCodec (decoded : AdmissionReview * option string)
    (pod : Pod + string) : Codec :=
  {| Decode := fun _ => decoded;
     Unmarshal_Pod := fun _ => pod;
     Marshal := fun r => inl (render_review r) |}.

Definition nginx : Container :=
  {| Name := "web"; Image := "docker.io/library/nginx:1.21" |}.
Definition malware : Container :=
  {| Name := "side"; Image := "evil.com/malware:latest" |}.
Definition app : Container :=
  {| Name := "app"; Image := "gcr.io/myorg/app:v2" |}.

Definition pod_of (cs : list Container) : Pod :=
  {| Spec := {| Containers := cs |} |}.

Definition server2 : WebhookServer :=
  {| WhiteListRegistries := ["docker.io/library/"; "gcr.io/myorg/"] |}.
Definition server2' : WebhookServer :=
  {| WhiteListRegistries := ["gcr.io/myorg/"; "docker.io/library/"] |}.
Definition server1 : WebhookServer :=
  {| WhiteListRegistries := ["gcr.io/myorg/"] |}.
Definition server0 : WebhookServer := {| WhiteListRegistries := [] |}.
Definition serverAny : WebhookServer :=
  {| WhiteListRegistries := ["gcr.io/myorg/"; ""] |}.

Definition request1 : AdmissionRequest :=
  {| UID := "705ab4f5-6393-11e8-b7cc-42010a800002";
     Kind_Kind := "Pod";
     Namespace := "default";
     Req_Name := "demo";
     Object_Raw := "{}" |}.

Definition review1 : AdmissionReview :=
  {| APIVersion := "admission.k8s.io/v1";
     Kind := "AdmissionReview";
     Request := Some request1;
     Response := None |}.

(** A review that decodes without its [request] member. *)
Definition review_no_request : AdmissionReview :=
  {| APIVersion := "admission.k8s.io/v1";
     Kind := "AdmissionReview";
     Request := None;
     Response := None |}.

Definition http_post (path contentType body : string) : HttpRequest :=
  {| Body := Some (body, None);
     Header := [("Content-Type", [contentType])];
     URL_Path := path |}.

(** Codecs that decode every body to [review1] and its raw object to the
    given containers. *)
Definition codec_pod (cs : list Container) : Codec :=
  fixedCodec (review1, None) (inl (pod_of cs)).

Definition codec_bad_pod : Codec :=
  fixedCodec (review1, None) (inr "unexpected end of JSON input").

Definition codec_no_request : Codec :=
  fixedCodec (review_no_request, None) (inl (pod_of [])).

Definition codec_bad_body : Codec :=
  fixedCodec (emptyReview, Some "invalid character 'x' looking for beginning of value")
             (inl (pod_of [])).

End Examples.

(** ** Further inputs *)

Module Inputs.

Import Examples.

(** A codec whose encoder fails. *)
Definition codec_marshal_fails : Codec :=
  {| Decode := fun _ => (review1, None);
     Unmarshal_Pod := fun _ => inl (pod_of [app]);
     Marshal := fun _ => inr "json: unsupported value" |}.

(** A request without body, and one whose body cannot be read to its end. *)
Definition http_no_body (path : string) : HttpRequest :=
  {| Body := None;
     Header := [("Content-Type", ["application/json"])];
     URL_Path := path |}.

Definition http_broken_body (path : string) : HttpRequest :=
  {| Body := Some ("{", Some "unexpected EOF");
     Header := [("Content-Type", ["application/json"])];
     URL_Path := path |}.

(** The whitelist of [server2] with a repeated entry. *)
Definition server_repeated : WebhookServer :=
  {| WhiteListRegistries :=
       ["gcr.io/myorg/"; "docker.io/library/"; "gcr.io/myorg/"] |}.

Definition server_gcr : WebhookServer :=
  {| WhiteListRegistries := ["gcr.io/"] |}.
Definition server_gcr' : WebhookServer :=
  {| WhiteListRegistries := ["gcr.io/myorg/"; "gcr.io/"] |}.

(** The image of [app] under another container name. *)
Definition app' : Container :=
  {| Name := "renamed"; Image := "gcr.io/myorg/app:v2" |}.

End Inputs.

(** ** Prefix test *)

Lemma substring_prefix_append (p rest : string) :
  substring 0 (String.length p) (p ++ rest) = p.
Proof.
  induction p as [|a p IH]; simpl.
  - now destruct rest.
  - now rewrite IH.
Qed.

Lemma substring_split (n : nat) (s : string) :
  (n <= String.length s)%nat ->
  s = substring 0 n s
      ++ substring n (String.length s - n) s.
Proof.
  revert s; induction n as [|n IH]; intros s Hn.
  - rewrite Nat.sub_0_r. destruct s as [|a s]; simpl; [reflexivity|].
    f_equal. clear. induction s as [|b s IH]; simpl; [reflexivity|].
    now rewrite <- IH.
  - destruct s as [|a s]; simpl in *; [lia|].
    f_equal. apply IH. lia.
Qed.

Lemma length_append (a b : string) :
  String.length (a ++ b) = (String.length a + String.length b)%nat.
Proof. induction a; simpl; congruence. Qed.

Lemma string_app_assoc (a b c : string) : (a ++ b) ++ c = a ++ (b ++ c).
Proof. induction a; simpl; congruence. Qed.

Lemma HasPrefix_spec (s p : string) :
  HasPrefix s p = true <-> IsPrefix p s.
Proof.
  unfold HasPrefix, IsPrefix. rewrite andb_true_iff, Nat.leb_le, String.eqb_eq.
  split.
  - intros [Hlen Hsub].
    exists (substring (String.length p) (String.length s - String.length p) s).
    rewrite <- Hsub at 1. now apply substring_split.
  - intros [rest ->]. split.
    + rewrite length_append. lia.
    + apply substring_prefix_append.
Qed.

Lemma HasPrefix_false (s p : string) :
  HasPrefix s p = false <-> ~ IsPrefix p s.
Proof.
  rewrite <- HasPrefix_spec. destruct (HasPrefix s p); split; congruence.
Qed.

Lemma HasPrefix_empty (s : string) : HasPrefix s "" = true.
Proof. apply HasPrefix_spec. now exists s. Qed.

(** ** The inner loop *)

Lemma whitelisted_fold (image : string) (regs : list string) (w : bool) :
  fold_left (fun w reg => if HasPrefix image reg then true else w) regs w
  = w || existsb (HasPrefix image) regs.
Proof.
  revert w; induction regs as [|reg regs IH]; intros w; simpl.
  - now rewrite orb_false_r.
  - rewrite IH. destruct (HasPrefix image reg), w; reflexivity.
Qed.

Lemma whitelisted_existsb (regs : list string) (image : string) :
  whitelisted regs image = existsb (HasPrefix image) regs.
Proof. unfold whitelisted. now rewrite whitelisted_fold. Qed.

(** A container passes the inner loop exactly when some whitelisted
    registry is a literal prefix of its image. *)
Lemma whitelisted_spec (regs : list string) (image : string) :
  whitelisted regs image = true
  <-> exists reg, In reg regs /\ IsPrefix reg image.
Proof.
  rewrite whitelisted_existsb, existsb_exists.
  split; intros [reg [Hin Hp]]; exists reg; split; auto;
    now apply HasPrefix_spec.
Qed.

Lemma whitelisted_false (regs : list string) (image : string) :
  whitelisted regs image = false
  <-> forall reg, In reg regs -> ~ IsPrefix reg image.
Proof.
  split.
  - intros Hw reg Hin Hp.
    assert (whitelisted regs image = true) by (apply whitelisted_spec; eauto).
    congruence.
  - intros Hall. destruct (whitelisted regs image) eqn:Hw; [|reflexivity].
    apply whitelisted_spec in Hw as [reg [Hin Hp]]. now elim (Hall reg).
Qed.

Lemma whitelisted_Permutation (regs regs' : list string) (image : string) :
  Permutation regs regs' -> whitelisted regs image = whitelisted regs' image.
Proof.
  intros Hperm. rewrite !whitelisted_existsb.
  induction Hperm; simpl.
  - reflexivity.
  - now rewrite IHHperm.
  - now rewrite !orb_assoc, (orb_comm (HasPrefix image y)).
  - congruence.
Qed.

(** ** The outer loop *)

Lemma check_containers_first (regs : list string) (cs : list Container)
    (st : bool * Z * string) :
  check_containers regs cs st =
  match first_untrusted regs cs with
  | Some c => (false, StatusForbidden, untrusted_message (Image c) regs)
  | None => st
  end.
Proof.
  induction cs as [|c cs IH]; simpl; [reflexivity|].
  destruct (whitelisted regs (Image c)); simpl; auto.
Qed.

Lemma first_untrusted_None (regs : list string) (cs : list Container) :
  first_untrusted regs cs = None
  <-> forall c, In c cs -> whitelisted regs (Image c) = true.
Proof.
  induction cs as [|c cs IH]; simpl.
  - split; [intros _ ? [] | reflexivity].
  - destruct (whitelisted regs (Image c)) eqn:Hw.
    + rewrite IH. split.
      * intros H c' [<-|Hin]; auto.
      * intros H c' Hin; auto.
    + split; [discriminate|]. intros H. specialize (H c (or_introl eq_refl)).
      congruence.
Qed.

Lemma first_untrusted_Some (regs : list string) (cs : list Container)
    (c : Container) :
  first_untrusted regs cs = Some c
  <-> exists pre post,
        cs = (pre ++ c :: post)%list
        /\ (forall c', In c' pre -> whitelisted regs (Image c') = true)
        /\ whitelisted regs (Image c) = false.
Proof.
  revert c; induction cs as [|c0 cs IH]; intros c; simpl.
  - split; [discriminate|]. intros (pre & post & H & _). now destruct pre.
  - destruct (whitelisted regs (Image c0)) eqn:Hw.
    + rewrite IH. split.
      * intros (pre & post & -> & Hpre & Hc).
        exists (c0 :: pre), post. repeat split; auto.
        intros c' [<-|Hin]; auto.
      * intros (pre & post & Heq & Hpre & Hc).
        destruct pre as [|p pre]; simpl in Heq; injection Heq as <- ->.
        -- congruence.
        -- exists pre, post. repeat split; auto; intros; apply Hpre; now right.
    + split.
      * intros [= <-]. exists [], cs. repeat split; auto; intros ? [].
      * intros (pre & post & Heq & Hpre & Hc).
        destruct pre as [|p pre]; simpl in Heq; injection Heq as <- ->.
        -- reflexivity.
        -- rewrite (Hpre c0 (or_introl eq_refl)) in Hw. discriminate.
Qed.

Lemma first_untrusted_Permutation (regs regs' : list string)
    (cs : list Container) :
  Permutation regs regs' ->
  first_untrusted regs cs = first_untrusted regs' cs.
Proof.
  intros Hperm. induction cs as [|c cs IH]; simpl; [reflexivity|].
  rewrite (whitelisted_Permutation _ _ (Image c) Hperm), IH. reflexivity.
Qed.

(** The text of a rejection, with [%s] and [%v] filled in. *)
Lemma untrusted_message_text (image : string) (regs : list string) :
  untrusted_message image regs
  = image ++ " image comes from untrusted registry! Only images form ["
          ++ String.concat " " regs ++ "] are allowed.".
Proof.
  unfold untrusted_message, fmt_v. f_equal. cbn [append].
  now rewrite string_app_assoc.
Qed.

Lemma int32_small (x : Z) :
  - 2 ^ 31 <= x < 2 ^ 31 -> int32 x = x.
Proof.
  intros H. unfold int32. rewrite Z.mod_small; lia.
Qed.

(** [evaluate] in terms of the first untrusted container. *)
Lemma evaluate_first (s : WebhookServer) (pod : Pod) :
  evaluate s pod =
  match first_untrusted (WhiteListRegistries s) (Containers (Spec pod)) with
  | Some c =>
      {| Resp_UID := ""; Allowed := false;
         Result := Some {| Code := 403;
                           Message := untrusted_message
                                        (Image c) (WhiteListRegistries s) |} |}
  | None =>
      {| Resp_UID := ""; Allowed := true;
         Result := Some {| Code := 200; Message := "" |} |}
  end.
Proof.
  unfold evaluate. rewrite check_containers_first.
  destruct (first_untrusted _ _); reflexivity.
Qed.

(** ** The decision of [validate] *)

Section Decision.

Context {codec : Codec}.

(** Once the request is present and its raw object decodes to a pod,
    [validate] returns what the whitelist loop computes. *)
Lemma validate_decoded (s : WebhookServer) (ar : AdmissionReview)
    (req : AdmissionRequest) (pod : Pod) :
  Request ar = Some req ->
  Unmarshal_Pod (Object_Raw req) = inl pod ->
  validate s ar = Return (evaluate s pod).
Proof.
  intros Hreq Hpod. unfold validate. rewrite Hreq. simpl. now rewrite Hpod.
Qed.

(** C1. When some container of the pod has an image that no whitelisted
    registry is a literal prefix of, [validate] answers for the first such
    container in container order: not allowed, code 403, and a message
    that starts with that container's image and lists the whitelist. The
    containers after it are not looked at. *)
Theorem C1_first_untrusted_container_denied
    (s : WebhookServer) (ar : AdmissionReview)
    (req : AdmissionRequest) (pod : Pod) :
  Request ar = Some req ->
  Unmarshal_Pod (Object_Raw req) = inl pod ->
  (exists c, In c (Containers (Spec pod))
             /\ forall reg, In reg (WhiteListRegistries s) ->
                            ~ IsPrefix reg (Image c)) ->
  exists pre c post,
    Containers (Spec pod) = (pre ++ c :: post)%list
    /\ (forall c', In c' pre ->
          exists reg, In reg (WhiteListRegistries s)
                      /\ IsPrefix reg (Image c'))
    /\ (forall reg, In reg (WhiteListRegistries s) ->
                    ~ IsPrefix reg (Image c))
    /\ validate s ar =
       Return {| Resp_UID := "";
                 Allowed := false;
                 Result := Some {|
                   Code := 403;
                   Message :=
                     Image c
                     ++ " image comes from untrusted registry! Only images form ["
                     ++ String.concat " " (WhiteListRegistries s)
                     ++ "] are allowed." |} |}
    /\ (forall post',
          evaluate s {| Spec := {| Containers := pre ++ c :: post' |} |}
          = evaluate s pod).
Proof.
  intros Hreq Hpod (bad & Hin & Hbad).
  destruct (first_untrusted (WhiteListRegistries s) (Containers (Spec pod)))
    as [c|] eqn:Hfirst.
  - pose proof Hfirst as Hsplit.
    apply first_untrusted_Some in Hsplit as (pre & post & Hcs & Hpre & Hc).
    exists pre, c, post. split; [assumption|].
    split; [intros c' Hc'; apply whitelisted_spec; auto|].
    split; [now apply whitelisted_false|].
    split.
    + rewrite (validate_decoded s ar req pod Hreq Hpod), evaluate_first, Hfirst.
      now rewrite untrusted_message_text.
    + intros post'. rewrite !evaluate_first, Hfirst. simpl.
      replace (first_untrusted (WhiteListRegistries s) (pre ++ c :: post'))
        with (Some c); [reflexivity|].
      symmetry. apply first_untrusted_Some. exists pre, post'. auto.
  - exfalso. rewrite first_untrusted_None in Hfirst.
    specialize (Hfirst bad Hin). apply whitelisted_spec in Hfirst.
    destruct Hfirst as (reg & Hreg & Hp). exact (Hbad reg Hreg Hp).
Qed.

(** C2. When every container image starts with some whitelisted registry,
    and in particular when the pod has no container at all, [validate]
    answers allowed, code 200, empty message. *)
Theorem C2_all_trusted_allowed
    (s : WebhookServer) (ar : AdmissionReview)
    (req : AdmissionRequest) (pod : Pod) :
  Request ar = Some req ->
  Unmarshal_Pod (Object_Raw req) = inl pod ->
  let allow := Return {| Resp_UID := "";
                         Allowed := true;
                         Result := Some {| Code := 200; Message := "" |} |}
  in
  ((forall c, In c (Containers (Spec pod)) ->
      exists reg, In reg (WhiteListRegistries s) /\ IsPrefix reg (Image c))
   -> validate s ar = allow)
  /\ (Containers (Spec pod) = [] -> validate s ar = allow).
Proof.
  intros Hreq Hpod allow.
  assert (Hall : (forall c, In c (Containers (Spec pod)) ->
                    exists reg, In reg (WhiteListRegistries s)
                                /\ IsPrefix reg (Image c))
                 -> validate s ar = allow).
  { intros Hc. rewrite (validate_decoded s ar req pod Hreq Hpod), evaluate_first.
    replace (first_untrusted _ _) with (@None Container); [reflexivity|].
    symmetry. apply first_untrusted_None. intros c Hin.
    apply whitelisted_spec. auto. }
  split; [exact Hall|].
  intros Hnil. apply Hall. rewrite Hnil. intros c [].
Qed.

(** C8. With an empty whitelist, a pod that has a container is denied:
    not allowed, code 403, the message naming its first container's
    image. *)
Theorem C8_empty_whitelist_denies
    (s : WebhookServer) (ar : AdmissionReview)
    (req : AdmissionRequest) (pod : Pod)
    (c : Container) (rest : list Container) :
  Request ar = Some req ->
  Unmarshal_Pod (Object_Raw req) = inl pod ->
  WhiteListRegistries s = [] ->
  Containers (Spec pod) = c :: rest ->
  validate s ar =
  Return {| Resp_UID := "";
            Allowed := false;
            Result := Some {|
              Code := 403;
              Message := Image c
                ++ " image comes from untrusted registry! Only images form []"
                ++ " are allowed." |} |}.
Proof.
  intros Hreq Hpod Hregs Hcs.
  rewrite (validate_decoded s ar req pod Hreq Hpod), evaluate_first, Hregs, Hcs.
  reflexivity.
Qed.

(** C10. When the empty string is one of the whitelisted registries,
    every pod is allowed with code 200: the empty prefix matches every
    image. *)
Theorem C10_empty_prefix_allows_all
    (s : WebhookServer) (ar : AdmissionReview)
    (req : AdmissionRequest) (pod : Pod) :
  Request ar = Some req ->
  Unmarshal_Pod (Object_Raw req) = inl pod ->
  In "" (WhiteListRegistries s) ->
  validate s ar =
  Return {| Resp_UID := "";
            Allowed := true;
            Result := Some {| Code := 200; Message := "" |} |}.
Proof.
  intros Hreq Hpod Hempty.
  rewrite (validate_decoded s ar req pod Hreq Hpod), evaluate_first.
  replace (first_untrusted _ _) with (@None Container); [reflexivity|].
  symmetry. apply first_untrusted_None. intros c _.
  apply whitelisted_spec. exists "". split; [assumption|].
  now exists (Image c).
Qed.

End Decision.

(** ** Order of the whitelist *)

Section WhitelistOrder.

Context {codec : Codec}.

(** C9 (amended). For two whitelists that are permutations of each other
    [validate] reaches the same verdict on every pod: the same allow flag
    and code, and a rejection names the same image. The message lists each
    whitelist in its own order. *)
Theorem C9_permuted_whitelist_same_verdict
    (s1 s2 : WebhookServer) (ar : AdmissionReview)
    (req : AdmissionRequest) (pod : Pod) :
  Request ar = Some req ->
  Unmarshal_Pod (Object_Raw req) = inl pod ->
  Permutation (WhiteListRegistries s1) (WhiteListRegistries s2) ->
  exists r1 r2,
    validate s1 ar = Return r1
    /\ validate s2 ar = Return r2
    /\ same_verdict (WhiteListRegistries s1) (WhiteListRegistries s2) r1 r2.
Proof.
  intros Hreq Hpod Hperm.
  exists (evaluate s1 pod), (evaluate s2 pod).
  rewrite !(validate_decoded _ ar req pod Hreq Hpod).
  split; [reflexivity|]. split; [reflexivity|].
  rewrite !evaluate_first.
  rewrite (first_untrusted_Permutation _ _ (Containers (Spec pod)) Hperm).
  destruct (first_untrusted _ _) as [c|]; unfold same_verdict; simpl.
  - do 2 eexists. repeat (split; [reflexivity|]). right. now exists (Image c).
  - do 2 eexists. repeat (split; [reflexivity|]). now left.
Qed.

End WhitelistOrder.

(** ** The handler *)

Section HandlerProperties.

Context {codec : Codec}.

Lemma length_eqb_0 (body : string) :
  body <> "" -> (String.length body =? 0)%nat = false.
Proof. destruct body; [congruence | reflexivity]. Qed.

(** Past the two transport checks the handler encodes the reply. *)
Lemma Handler_reply (s : WebhookServer) (writer : ResponseWriter)
    (request : HttpRequest) :
  read_body request <> "" ->
  Header_Get (Header request) "Content-Type" = "application/json" ->
  Handler s writer request =
  (r <- reply s (URL_Path request) (read_body request) ;;
   Return (send writer r)).
Proof.
  intros Hbody Hct. unfold Handler.
  rewrite (length_eqb_0 _ Hbody), Hct. reflexivity.
Qed.

(** Encoding and writing on a fresh writer. *)
Lemma send_encoded (envelope : AdmissionReview) (bytes : string) :
  Marshal envelope = inl bytes ->
  send newResponseWriter envelope
  = {| status := Some 200; written := bytes |}.
Proof. intros H. unfold send. now rewrite H. Qed.

(** C3 (the code at its failing input). A review that decodes without
    its request member, posted to the validate path, makes the handler
    panic on the nil request: nothing is written. *)
Theorem C3_missing_request_panics
    (s : WebhookServer) (writer : ResponseWriter)
    (request : HttpRequest) (ar : AdmissionReview) :
  read_body request <> "" ->
  Header_Get (Header request) "Content-Type" = "application/json" ->
  URL_Path request = "/validate" ->
  Decode (read_body request) = (ar, None) ->
  Request ar = None ->
  Handler s writer request
  = Panic "invalid memory address or nil pointer dereference".
Proof.
  intros Hbody Hct Hpath Hdec Hnil.
  rewrite (Handler_reply s writer request Hbody Hct), Hpath.
  unfold reply, dispatch, validate. rewrite Hdec, Hnil. reflexivity.
Qed.

(** C4 (the code at its failing input). With a non-empty body and a
    content type other than application/json the handler returns without
    decoding and without writing: the writer is left as it was, so the
    client receives status 200 and an empty body, not 400. *)
Theorem C4_wrong_content_type_writes_nothing
    (s : WebhookServer) (request : HttpRequest) :
  read_body request <> "" ->
  Header_Get (Header request) "Content-Type" <> "application/json" ->
  Handler s newResponseWriter request = Return newResponseWriter
  /\ outer_status newResponseWriter = 200.
Proof.
  intros Hbody Hct. split; [|reflexivity]. unfold Handler.
  rewrite (length_eqb_0 _ Hbody).
  apply String.eqb_neq in Hct. now rewrite Hct.
Qed.

(** C5. When the body does not decode, the handler still replies with an
    envelope, written with status 200: it mirrors the version and kind
    left by the decoder and carries a response that is not allowed, has
    code 500 and has the decode error as its message. *)
Theorem C5_decode_error_enveloped
    (s : WebhookServer) (request : HttpRequest)
    (ar : AdmissionReview) (e bytes : string) :
  read_body request <> "" ->
  Header_Get (Header request) "Content-Type" = "application/json" ->
  Decode (read_body request) = (ar, Some e) ->
  let envelope :=
    {| APIVersion := APIVersion ar;
       Kind := Kind ar;
       Request := None;
       Response := Some {|
         Resp_UID := match Request ar with
                     | Some req => UID req
                     | None => ""
                     end;
         Allowed := false;
         Result := Some {| Message := e; Code := 500 |} |} |} in
  Marshal envelope = inl bytes ->
  reply s (URL_Path request) (read_body request) = Return envelope
  /\ Handler s newResponseWriter request
     = Return {| status := Some 200; written := bytes |}
  /\ outer_status {| status := Some 200; written := bytes |} = 200.
Proof.
  intros Hbody Hct Hdec envelope Henc.
  assert (Hreply : reply s (URL_Path request) (read_body request)
                   = Return envelope).
  { unfold reply, dispatch. rewrite Hdec. simpl. unfold build_response.
    subst envelope. simpl. now destruct (Request ar). }
  split; [exact Hreply|]. split; [|reflexivity].
  rewrite (Handler_reply s _ request Hbody Hct), Hreply. simpl.
  now rewrite (send_encoded _ _ Henc).
Qed.





(** C7. On the validate path, when the review decodes but the raw object
    of its request is not a pod, [validate] answers not allowed, code 400,
    with the unmarshal error as message, and the handler writes the
    envelope around it with status 200. *)
Theorem C7_unmarshal_error_is_400
    (s : WebhookServer) (request : HttpRequest)
    (ar : AdmissionReview) (req : AdmissionRequest) (e bytes : string) :
  read_body request <> "" ->
  Header_Get (Header request) "Content-Type" = "application/json" ->
  URL_Path request = "/validate" ->
  Decode (read_body request) = (ar, None) ->
  Request ar = Some req ->
  Unmarshal_Pod (Object_Raw req) = inr e ->
  let envelope :=
    {| APIVersion := APIVersion ar;
       Kind := Kind ar;
       Request := None;
       Response := Some {|
         Resp_UID := UID req;
         Allowed := false;
         Result := Some {| Message := e; Code := 400 |} |} |} in
  Marshal envelope = inl bytes ->
  validate s ar
  = Return {| Resp_UID := "";
              Allowed := false;
              Result := Some {| Message := e; Code := 400 |} |}
  /\ reply s (URL_Path request) (read_body request) = Return envelope
  /\ Handler s newResponseWriter request
     = Return {| status := Some 200; written := bytes |}.
Proof.
  intros Hbody Hct Hpath Hdec Hreq Hpod envelope Henc.
  assert (Hval : validate s ar
                 = Return {| Resp_UID := "";
                             Allowed := false;
                             Result := Some {| Message := e;
                                               Code := 400 |} |}).
  { unfold validate. rewrite Hreq. simpl. now rewrite Hpod. }
  assert (Hreply : reply s (URL_Path request) (read_body request)
                   = Return envelope).
  { unfold reply, dispatch. rewrite Hdec, Hpath. simpl. rewrite Hval. simpl.
    unfold build_response. now rewrite Hreq. }
  repeat split; [exact Hval | exact Hreply |].
  rewrite (Handler_reply s _ request Hbody Hct), Hreply. simpl.
  now rewrite (send_encoded _ _ Henc).
Qed.

End HandlerProperties.

(** ** Worked examples *)

Module Runs.

Import Examples.

(** The two examples of the specification. *)
Example run_denied :
  evaluate server2 (pod_of [nginx; malware])
  = {| Resp_UID := "";
       Allowed := false;
       Result := Some {|
         Message := "evil.com/malware:latest image comes from untrusted registry! Only images form [docker.io/library/ gcr.io/myorg/] are allowed.";
         Code := 403 |} |}.
Proof. reflexivity. Qed.

Example run_allowed :
  evaluate server1 (pod_of [app])
  = {| Resp_UID := "";
       Allowed := true;
       Result := Some {| Message := ""; Code := 200 |} |}.
Proof. reflexivity. Qed.

(** No early exit is needed in the inner loop: a later registry may be
    the one that matches. *)
Example run_second_registry :
  whitelisted ["docker.io/library/"; "gcr.io/myorg/"] (Image app) = true.
Proof. reflexivity. Qed.

(** An empty body is refused with status 400 before anything else. *)
Example run_empty_body :
  Handler (codec := codec_pod [app]) server1 newResponseWriter
          (http_post "/validate" "application/json" "")
  = Return {| status := Some 400;
              written := "empty data body" ++ newline |}.
Proof. reflexivity. Qed.

(** A full exchange on the validate path. *)
Example run_validate :
  Handler (codec := codec_pod [nginx; malware]) server1 newResponseWriter
          (http_post "/validate" "application/json" "{}")
  = Return {|
      status := Some 200;
      written :=
        render_review {|
          APIVersion := "admission.k8s.io/v1";
          Kind := "AdmissionReview";
          Request := None;
          Response := Some {|
            Resp_UID := "705ab4f5-6393-11e8-b7cc-42010a800002";
            Allowed := false;
            Result := Some {|
              Message := "docker.io/library/nginx:1.21 image comes from untrusted registry! Only images form [gcr.io/myorg/] are allowed.";
              Code := 403 |} |} |} |}.
Proof. reflexivity. Qed.

Lemma C1_witness :
  exists pre c post,
    Containers (Spec (pod_of [nginx; malware])) = (pre ++ c :: post)%list
    /\ (forall c', In c' pre ->
          exists reg, In reg (WhiteListRegistries server2)
                      /\ IsPrefix reg (Image c'))
    /\ (forall reg, In reg (WhiteListRegistries server2) ->
                    ~ IsPrefix reg (Image c))
    /\ validate (codec := codec_pod [nginx; malware]) server2 review1 =
       Return {| Resp_UID := "";
                 Allowed := false;
                 Result := Some {|
                   Code := 403;
                   Message :=
                     Image c
                     ++ " image comes from untrusted registry! Only images form ["
                     ++ String.concat " " (WhiteListRegistries server2)
                     ++ "] are allowed." |} |}
    /\ (forall post',
          evaluate server2
            {| Spec := {| Containers := pre ++ c :: post' |} |}
          = evaluate server2 (pod_of [nginx; malware])).
Proof.
  apply (C1_first_untrusted_container_denied
           (codec := codec_pod [nginx; malware])
           server2 review1 request1 (pod_of [nginx; malware])
           eq_refl eq_refl).
  exists malware. split.
  - simpl. auto.
  - apply (proj1 (whitelisted_false _ _)). reflexivity.
Defined.

Lemma C2_witness :
  let allow := Return {| Resp_UID := "";
                         Allowed := true;
                         Result := Some {| Code := 200; Message := "" |} |}
  in
  validate (codec := codec_pod [app]) server1 review1 = allow
  /\ validate (codec := codec_pod []) server1 review1 = allow.
Proof.
  split.
  - apply (proj1 (C2_all_trusted_allowed
                    (codec := codec_pod [app])
                    server1 review1 request1 (pod_of [app])
                    eq_refl eq_refl)).
    intros c Hin. apply (proj1 (whitelisted_spec _ _)).
    destruct Hin as [<-|[]]. reflexivity.
  - apply (proj2 (C2_all_trusted_allowed
                    (codec := codec_pod [])
                    server1 review1 request1 (pod_of [])
                    eq_refl eq_refl)).
    reflexivity.
Defined.

Lemma C8_witness :
  validate (codec := codec_pod [app]) server0 review1 =
  Return {| Resp_UID := "";
            Allowed := false;
            Result := Some {|
              Code := 403;
              Message := Image app
                ++ " image comes from untrusted registry! Only images form []"
                ++ " are allowed." |} |}.
Proof.
  exact (C8_empty_whitelist_denies
           (codec := codec_pod [app])
           server0 review1 request1 (pod_of [app]) app []
           eq_refl eq_refl eq_refl eq_refl).
Defined.

Lemma C10_witness :
  validate (codec := codec_pod [nginx; malware]) serverAny review1 =
  Return {| Resp_UID := "";
            Allowed := true;
            Result := Some {| Code := 200; Message := "" |} |}.
Proof.
  apply (C10_empty_prefix_allows_all
           (codec := codec_pod [nginx; malware])
           serverAny review1 request1 (pod_of [nginx; malware])
           eq_refl eq_refl).
  simpl. auto.
Defined.

(** C9 as stated fails: with the two registries swapped the rejection
    of the same pod carries a different message. *)
Lemma C9_permuted_whitelist_changes_message :
  Permutation (WhiteListRegistries server2) (WhiteListRegistries server2')
  /\ validate (codec := codec_pod [malware]) server2 review1
     = Return {| Resp_UID := "";
                 Allowed := false;
                 Result := Some {|
                   Message := "evil.com/malware:latest image comes from untrusted registry! Only images form [docker.io/library/ gcr.io/myorg/] are allowed.";
                   Code := 403 |} |}
  /\ validate (codec := codec_pod [malware]) server2' review1
     = Return {| Resp_UID := "";
                 Allowed := false;
                 Result := Some {|
                   Message := "evil.com/malware:latest image comes from untrusted registry! Only images form [gcr.io/myorg/ docker.io/library/] are allowed.";
                   Code := 403 |} |}
  /\ validate (codec := codec_pod [malware]) server2 review1
     <> validate (codec := codec_pod [malware]) server2' review1.
Proof.
  split; [apply perm_swap|].
  split; [reflexivity|]. split; [reflexivity|].
  intros H. vm_compute in H. discriminate H.
Qed.

Lemma C9_witness :
  exists r1 r2,
    validate (codec := codec_pod [malware]) server2 review1 = Return r1
    /\ validate (codec := codec_pod [malware]) server2' review1 = Return r2
    /\ same_verdict (WhiteListRegistries server2)
                    (WhiteListRegistries server2') r1 r2.
Proof.
  apply (C9_permuted_whitelist_same_verdict
           (codec := codec_pod [malware])
           server2 server2' review1 request1 (pod_of [malware])
           eq_refl eq_refl).
  apply perm_swap.
Defined.

Lemma C3_witness :
  Handler (codec := codec_no_request) server1 newResponseWriter
          (http_post "/validate" "application/json" "{}")
  = Panic "invalid memory address or nil pointer dereference".
Proof.
  apply (C3_missing_request_panics
           (codec := codec_no_request) server1 newResponseWriter
           (http_post "/validate" "application/json" "{}")
           review_no_request).
  - discriminate.
  - reflexivity.
  - reflexivity.
  - reflexivity.
  - reflexivity.
Defined.

Lemma C4_witness :
  Handler (codec := codec_pod [app]) server1 newResponseWriter
          (http_post "/validate" "text/plain" "{}")
  = Return newResponseWriter
  /\ outer_status newResponseWriter = 200.
Proof.
  apply (C4_wrong_content_type_writes_nothing
           (codec := codec_pod [app]) server1
           (http_post "/validate" "text/plain" "{}")).
  - discriminate.
  - discriminate.
Defined.

Lemma C5_witness :
  let envelope :=
    {| APIVersion := "";
       Kind := "";
       Request := None;
       Response := Some {|
         Resp_UID := "";
         Allowed := false;
         Result := Some {|
           Message := "invalid character 'x' looking for beginning of value";
           Code := 500 |} |} |} in
  let written := render_review envelope in
  reply (codec := codec_bad_body) server1 "/validate" "xyz" = Return envelope
  /\ Handler (codec := codec_bad_body) server1 newResponseWriter
             (http_post "/validate" "application/json" "xyz")
     = Return {| status := Some 200; written := written |}
  /\ outer_status {| status := Some 200; written := written |} = 200.
Proof.
  apply (C5_decode_error_enveloped
           (codec := codec_bad_body) server1
           (http_post "/validate" "application/json" "xyz")
           emptyReview
           "invalid character 'x' looking for beginning of value").
  - discriminate.
  - reflexivity.
  - reflexivity.
  - reflexivity.
Defined.



(** The two halves of C6 at a request: on the validate path the UID comes
    back, on the mutate path nothing does. *)
Example run_uid_echo :
  Handler (codec := codec_pod [app]) server1 newResponseWriter
          (http_post "/validate" "application/json" "{}")
  = Return {|
      status := Some 200;
      written :=
        render_review {|
          APIVersion := "admission.k8s.io/v1";
          Kind := "AdmissionReview";
          Request := None;
          Response := Some {|
            Resp_UID := "705ab4f5-6393-11e8-b7cc-42010a800002";
            Allowed := true;
            Result := Some {| Message := ""; Code := 200 |} |} |} |}
  /\ Handler (codec := codec_pod [app]) server1 newResponseWriter
             (http_post "/mutate" "application/json" "{}")
     = Return {|
         status := Some 200;
         written :=
           render_review {|
             APIVersion := "admission.k8s.io/v1";
             Kind := "AdmissionReview";
             Request := None;
             Response := None |} |}.
Proof. split; reflexivity. Qed.

Lemma C7_witness :
  let envelope :=
    {| APIVersion := "admission.k8s.io/v1";
       Kind := "AdmissionReview";
       Request := None;
       Response := Some {|
         Resp_UID := "705ab4f5-6393-11e8-b7cc-42010a800002";
         Allowed := false;
         Result := Some {| Message := "unexpected end of JSON input";
                           Code := 400 |} |} |} in
  validate (codec := codec_bad_pod) server1 review1
  = Return {| Resp_UID := "";
              Allowed := false;
              Result := Some {| Message := "unexpected end of JSON input";
                                Code := 400 |} |}
  /\ reply (codec := codec_bad_pod) server1 "/validate" "{}"
     = Return envelope
  /\ Handler (codec := codec_bad_pod) server1 newResponseWriter
             (http_post "/validate" "application/json" "{}")
     = Return {| status := Some 200; written := render_review envelope |}.
Proof.
  apply (C7_unmarshal_error_is_400
           (codec := codec_bad_pod) server1
           (http_post "/validate" "application/json" "{}")
           review1 request1 "unexpected end of JSON input").
  - discriminate.
  - reflexivity.
  - reflexivity.
  - reflexivity.
  - reflexivity.
  - reflexivity.
  - reflexivity.
Defined.

End Runs.


(** ** More on the whitelist loop *)

Lemma whitelisted_incl (regs regs' : list string) (image : string) :
  incl regs regs' ->
  whitelisted regs image = true -> whitelisted regs' image = true.
Proof.
  intros Hincl Hw. apply whitelisted_spec in Hw as (reg & Hin & Hp).
  apply whitelisted_spec. exists reg. split; [now apply Hincl | assumption].
Qed.

Lemma first_untrusted_ext (regs regs' : list string) (cs : list Container) :
  (forall image, whitelisted regs image = whitelisted regs' image) ->
  first_untrusted regs cs = first_untrusted regs' cs.
Proof.
  intros Hext. induction cs as [|c cs IH]; simpl; [reflexivity|].
  now rewrite Hext, IH.
Qed.

Lemma first_untrusted_app (regs : list string) (cs1 cs2 : list Container) :
  first_untrusted regs (cs1 ++ cs2)%list =
  match first_untrusted regs cs1 with
  | Some c => Some c
  | None => first_untrusted regs cs2
  end.
Proof.
  induction cs1 as [|c cs1 IH]; simpl; [reflexivity|].
  now destruct (whitelisted regs (Image c)).
Qed.

Lemma evaluate_allowed (s : WebhookServer) (pod : Pod) :
  Allowed (evaluate s pod) = true
  <-> first_untrusted (WhiteListRegistries s) (Containers (Spec pod)) = None.
Proof.
  rewrite evaluate_first.
  destruct (first_untrusted _ _); simpl; split; congruence.
Qed.

(** Whitelists that accept the same images give the same verdict. *)
Lemma evaluate_same_verdict (s1 s2 : WebhookServer) (pod : Pod) :
  (forall image, whitelisted (WhiteListRegistries s1) image
                 = whitelisted (WhiteListRegistries s2) image) ->
  same_verdict (WhiteListRegistries s1) (WhiteListRegistries s2)
               (evaluate s1 pod) (evaluate s2 pod).
Proof.
  intros Hext. rewrite !evaluate_first.
  rewrite (first_untrusted_ext _ _ (Containers (Spec pod)) Hext).
  destruct (first_untrusted _ _) as [c|]; unfold same_verdict; simpl.
  - do 2 eexists. repeat (split; [reflexivity|]). right. now exists (Image c).
  - do 2 eexists. repeat (split; [reflexivity|]). now left.
Qed.

Lemma IsPrefix_trans (a b c : string) :
  IsPrefix a b -> IsPrefix b c -> IsPrefix a c.
Proof.
  intros [r1 ->] [r2 ->]. exists (r1 ++ r2). apply string_app_assoc.
Qed.

(** X7. The inner loop of [validate], which has no early exit, computes
    whether some whitelisted registry is a prefix of the image: its flag is
    the short-circuiting disjunction of the prefix tests, and it is set
    exactly when a registry of the list is a literal prefix. *)
Theorem X7_inner_loop_is_any_prefix (regs : list string) (image : string) :
  whitelisted regs image = existsb (fun reg => HasPrefix image reg) regs
  /\ (whitelisted regs image = true
      <-> exists reg rest, In reg regs /\ image = reg ++ rest).
Proof.
  split.
  - unfold whitelisted. now rewrite whitelisted_fold.
  - rewrite whitelisted_spec. unfold IsPrefix. split.
    + intros (reg & Hin & rest & ->). now exists reg, rest.
    + intros (reg & rest & Hin & ->). exists reg. split; [assumption|].
      now exists rest.
Qed.

(** X8. Enlarging the whitelist never turns an allowed pod into a rejected
    one: a pod allowed under a whitelist is allowed, with code 200 and an
    empty message, under every whitelist that contains it. *)
Theorem X8_larger_whitelist_keeps_allowed
    (s s' : WebhookServer) (pod : Pod) :
  incl (WhiteListRegistries s) (WhiteListRegistries s') ->
  Allowed (evaluate s pod) = true ->
  evaluate s' pod
  = {| Resp_UID := "";
       Allowed := true;
       Result := Some {| Code := 200; Message := "" |} |}.
Proof.
  intros Hincl Hallowed. apply evaluate_allowed in Hallowed.
  rewrite evaluate_first.
  replace (first_untrusted _ _) with (@None Container); [reflexivity|].
  symmetry. apply first_untrusted_None. intros c Hin.
  apply (whitelisted_incl _ _ _ Hincl).
  now apply (proj1 (first_untrusted_None _ _) Hallowed).
Qed.

(** X9. The verdict depends on the whitelist as a set: two whitelists with
    the same entries, in any order and with any repetition, give the same
    allow flag and code and reject the same image. *)
Theorem X9_whitelist_is_a_set (s1 s2 : WebhookServer) (pod : Pod) :
  incl (WhiteListRegistries s1) (WhiteListRegistries s2) ->
  incl (WhiteListRegistries s2) (WhiteListRegistries s1) ->
  same_verdict (WhiteListRegistries s1) (WhiteListRegistries s2)
               (evaluate s1 pod) (evaluate s2 pod).
Proof.
  intros H12 H21. apply evaluate_same_verdict. intros image.
  destruct (whitelisted (WhiteListRegistries s1) image) eqn:H1,
           (whitelisted (WhiteListRegistries s2) image) eqn:H2;
    try reflexivity.
  - now rewrite (whitelisted_incl _ _ _ H12 H1) in H2.
  - now rewrite (whitelisted_incl _ _ _ H21 H2) in H1.
Qed.

(** X10. The decision reads nothing of a container but its image: two pods
    whose containers carry the same images in the same order get the same
    response. *)
Theorem X10_only_images_matter (s : WebhookServer) (pod pod' : Pod) :
  map Image (Containers (Spec pod)) = map Image (Containers (Spec pod')) ->
  evaluate s pod = evaluate s pod'.
Proof.
  intros Himages. unfold evaluate.
  replace (check_containers (WhiteListRegistries s) (Containers (Spec pod))
                            (true, 200, ""))
    with (check_containers (WhiteListRegistries s) (Containers (Spec pod'))
                           (true, 200, "")); [reflexivity|].
  revert Himages.
  generalize (Containers (Spec pod')) as cs', (Containers (Spec pod)) as cs.
  induction cs' as [|c' cs' IH]; intros [|c cs] Himages; simpl in *;
    try discriminate; [reflexivity|].
  injection Himages as Hc Hcs. rewrite Hc.
  destruct (whitelisted _ (Image c')); simpl; [now apply IH | reflexivity].
Qed.

(** X11. Containers are judged from left to right: the response for two
    container lists put one after the other is the response for the first
    list when that one is rejected, and the response for the second list
    otherwise. *)
Theorem X11_containers_left_to_right
    (s : WebhookServer) (cs1 cs2 : list Container) :
  evaluate s {| Spec := {| Containers := cs1 ++ cs2 |} |}
  = if Allowed (evaluate s {| Spec := {| Containers := cs1 |} |})
    then evaluate s {| Spec := {| Containers := cs2 |} |}
    else evaluate s {| Spec := {| Containers := cs1 |} |}.
Proof.
  rewrite !evaluate_first. simpl. rewrite first_untrusted_app.
  now destruct (first_untrusted (WhiteListRegistries s) cs1).
Qed.

(** X14. A registry that extends an entry of the whitelist is redundant:
    adding it changes neither the allow flag nor the code nor the rejected
    image of any pod. *)
Theorem X14_longer_registry_is_redundant
    (regs : list string) (reg reg' : string) (pod : Pod) :
  In reg regs ->
  IsPrefix reg reg' ->
  same_verdict (reg' :: regs) regs
               (evaluate {| WhiteListRegistries := reg' :: regs |} pod)
               (evaluate {| WhiteListRegistries := regs |} pod).
Proof.
  intros Hin Hext.
  apply (evaluate_same_verdict {| WhiteListRegistries := reg' :: regs |}
                               {| WhiteListRegistries := regs |}).
  simpl. intros image. rewrite !whitelisted_existsb. simpl.
  destruct (HasPrefix image reg') eqn:Hp; [|reflexivity]. simpl.
  symmetry. rewrite <- whitelisted_existsb. apply whitelisted_spec.
  exists reg. split; [assumption|].
  apply HasPrefix_spec in Hp. now apply (IsPrefix_trans reg reg' image).
Qed.

(** ** More on the handlers *)

Section HandlerCases.

Context {codec : Codec}.

(** X1. A request whose body is nil, cannot be read without error, or is
    empty is refused with status 400 and the text "empty data body",
    whatever its headers and path; nothing is decoded. *)
Theorem X1_empty_body_refused (s : WebhookServer) (request : HttpRequest) :
  (Body request = None
   \/ (exists data e, Body request = Some (data, Some e))
   \/ Body request = Some ("", None)) ->
  Handler s newResponseWriter request
  = Return {| status := Some 400;
              written := "empty data body" ++ newline |}.
Proof.
  intros [Hnil | [(data & e & Herr) | Hempty]];
    unfold Handler, read_body; [rewrite Hnil | rewrite Herr | rewrite Hempty];
    reflexivity.
Qed.

(** X12. [validate] panics exactly when the review has no request.
    Otherwise it returns a response with an empty UID and a status whose
    code is 200, 400 or 403; the response is allowed exactly when the code
    is 200, and then the message is empty. *)
Theorem X12_validate_outcomes (s : WebhookServer) (ar : AdmissionReview) :
  match Request ar with
  | None =>
      validate s ar
      = Panic "invalid memory address or nil pointer dereference"
  | Some _ =>
      exists r st,
        validate s ar = Return r
        /\ Resp_UID r = ""
        /\ Result r = Some st
        /\ (Code st = 200 \/ Code st = 400 \/ Code st = 403)
        /\ (Allowed r = true <-> Code st = 200)
        /\ (Allowed r = true -> Message st = "")
  end.
Proof.
  unfold validate. destruct (Request ar) as [req|]; simpl; [|reflexivity].
  destruct (Unmarshal_Pod (Object_Raw req)) as [pod|err].
  - rewrite evaluate_first.
    destruct (first_untrusted _ _) as [c|]; do 2 eexists;
      (split; [reflexivity|]); simpl; repeat split; auto; try discriminate.
  - do 2 eexists. split; [reflexivity|]. simpl.
    repeat split; auto; discriminate.
Qed.

(** X2. The handler panics in one situation only: a non-empty body with
    content type application/json, posted to the validate path, that
    decodes without error to a review without request. *)
Theorem X2_panic_iff_missing_request
    (s : WebhookServer) (writer : ResponseWriter) (request : HttpRequest)
    (msg : string) :
  Handler s writer request = Panic msg
  <-> (read_body request <> ""
       /\ Header_Get (Header request) "Content-Type" = "application/json"
       /\ URL_Path request = "/validate"
       /\ (exists ar, Decode (read_body request) = (ar, None)
                      /\ Request ar = None)
       /\ msg = "invalid memory address or nil pointer dereference").
Proof.
  split.
  - unfold Handler.
    destruct (read_body request) as [|a body] eqn:Hbody; simpl;
      [discriminate|].
    destruct (String.eqb_spec (Header_Get (Header request) "Content-Type")
                              "application/json") as [Hct|Hct]; simpl;
      [|discriminate].
    unfold reply, dispatch.
    destruct (Decode (String a body)) as [ar [e|]] eqn:Hdec; simpl;
      [discriminate|].
    destruct (String.eqb_spec (URL_Path request) "/mutate") as [Hm|Hm];
      simpl; [discriminate|].
    destruct (String.eqb_spec (URL_Path request) "/validate") as [Hv|Hv];
      simpl; [|discriminate].
    unfold validate. destruct (Request ar) as [req|] eqn:Hreq; simpl.
    + destruct (Unmarshal_Pod (Object_Raw req)); simpl; discriminate.
    + intros [= <-]. repeat split; try assumption; try discriminate.
      exists ar. now split.
  - intros (Hbody & Hct & Hpath & (ar & Hdec & Hnil) & ->).
    rewrite (Handler_reply s writer request Hbody Hct), Hpath.
    unfold reply, dispatch, validate. rewrite Hdec, Hnil. reflexivity.
Qed.

(** X3. Whenever the handler returns, the status the client receives is
    200 or 400: the codes 403 and 500 of a decision travel only inside the
    body. *)
Theorem X3_transport_status_200_or_400
    (s : WebhookServer) (request : HttpRequest) (w : ResponseWriter) :
  Handler s newResponseWriter request = Return w ->
  outer_status w = 200 \/ outer_status w = 400.
Proof.
  unfold Handler.
  destruct (String.length (read_body request) =? 0)%nat.
  - intros [= <-]. now right.
  - destruct (negb _).
    + intros [= <-]. now left.
    + destruct (reply s (URL_Path request) (read_body request)) as [env|m];
        simpl; [|discriminate].
      intros [= <-]. unfold send.
      destruct (Marshal env); [now left | now right].
Qed.

(** X4. When the reply cannot be encoded the handler answers with status
    400 and the text "Can't encode response: " followed by the encoder's
    error; no part of an envelope is written. *)
Theorem X4_encode_failure_is_400
    (s : WebhookServer) (request : HttpRequest)
    (envelope : AdmissionReview) (err : string) :
  read_body request <> "" ->
  Header_Get (Header request) "Content-Type" = "application/json" ->
  reply s (URL_Path request) (read_body request) = Return envelope ->
  Marshal envelope = inr err ->
  Handler s newResponseWriter request
  = Return {| status := Some 400;
              written := ("Can't encode response: " ++ err) ++ newline |}.
Proof.
  intros Hbody Hct Hreply Henc.
  rewrite (Handler_reply s _ request Hbody Hct), Hreply. simpl.
  unfold send. now rewrite Henc.
Qed.

(** X5. On every path other than the validate path, a body that decodes
    gets a reply that mirrors version and kind and carries no response at
    all; neither the whitelist nor the request is looked at, so a review
    without request is harmless there. *)
Theorem X5_other_paths_no_response
    (s : WebhookServer) (path body : string) (ar : AdmissionReview) :
  path <> "/validate" ->
  Decode body = (ar, None) ->
  reply s path body
  = Return {| APIVersion := APIVersion ar;
              Kind := Kind ar;
              Request := None;
              Response := None |}.
Proof.
  intros Hpath Hdec. unfold reply, dispatch. rewrite Hdec.
  destruct (String.eqb_spec path "/mutate"); [reflexivity|].
  destruct (String.eqb_spec path "/validate"); [contradiction|reflexivity].
Qed.

(** X6. A full exchange on the validate path: when the body decodes to a
    review with a request whose raw object is a pod, the handler writes,
    with status 200, the encoding of a review that mirrors version and kind
    and whose response is the decision on the pod, carrying the request's
    UID. *)
Theorem X6_validate_end_to_end
    (s : WebhookServer) (request : HttpRequest)
    (ar : AdmissionReview) (req : AdmissionRequest) (pod : Pod)
    (bytes : string) :
  read_body request <> "" ->
  Header_Get (Header request) "Content-Type" = "application/json" ->
  URL_Path request = "/validate" ->
  Decode (read_body request) = (ar, None) ->
  Request ar = Some req ->
  Unmarshal_Pod (Object_Raw req) = inl pod ->
  Marshal {| APIVersion := APIVersion ar;
             Kind := Kind ar;
             Request := None;
             Response := Some {|
               Resp_UID := UID req;
               Allowed := Allowed (evaluate s pod);
               Result := Result (evaluate s pod) |} |} = inl bytes ->
  Handler s newResponseWriter request
  = Return {| status := Some 200; written := bytes |}.
Proof.
  intros Hbody Hct Hpath Hdec Hreq Hpod Henc.
  rewrite (Handler_reply s _ request Hbody Hct), Hpath.
  unfold reply, dispatch. rewrite Hdec. simpl.
  rewrite (validate_decoded s ar req pod Hreq Hpod). simpl.
  unfold build_response. rewrite Hreq.
  now rewrite (send_encoded _ _ Henc).
Qed.

(** X13. The handler never lets a pod through by accident: a reply whose
    response is allowed arises only on the validate path, from a body that
    decoded without error to a review with a request whose raw object is a
    pod, every container image of which starts with a whitelisted
    registry; the response then has code 200 and the request's UID. *)
Theorem X13_allowed_only_when_whitelisted
    (s : WebhookServer) (path body : string)
    (envelope : AdmissionReview) (resp : AdmissionResponse) :
  reply s path body = Return envelope ->
  Response envelope = Some resp ->
  Allowed resp = true ->
  path = "/validate"
  /\ exists ar req pod,
       Decode body = (ar, None)
       /\ Request ar = Some req
       /\ Unmarshal_Pod (Object_Raw req) = inl pod
       /\ (forall c, In c (Containers (Spec pod)) ->
             exists reg, In reg (WhiteListRegistries s)
                         /\ IsPrefix reg (Image c))
       /\ Resp_UID resp = UID req
       /\ Result resp = Some {| Message := ""; Code := 200 |}.
Proof.
  unfold reply, dispatch.
  destruct (Decode body) as [ar [e|]] eqn:Hdec; simpl.
  - unfold build_response. intros [= <-]. simpl.
    destruct (Request ar); intros [= <-]; discriminate.
  - destruct (String.eqb_spec path "/mutate") as [Hm|Hm]; simpl.
    { intros [= <-]. discriminate. }
    destruct (String.eqb_spec path "/validate") as [Hv|Hv]; simpl.
    2:{ intros [= <-]. discriminate. }
    unfold validate. destruct (Request ar) as [req|] eqn:Hreq; simpl;
      [|discriminate].
    destruct (Unmarshal_Pod (Object_Raw req)) as [pod|err] eqn:Hpod; simpl.
    + unfold build_response. rewrite Hreq. intros [= <-]. simpl.
      intros [= <-]. simpl. intros Hallowed.
      split; [assumption|]. exists ar, req, pod.
      repeat (split; [reflexivity || assumption|]).
      pose proof (proj1 (evaluate_allowed s pod) Hallowed) as Hnone.
      split; [|split; [reflexivity|]].
      * intros c Hin. apply whitelisted_spec.
        now apply (proj1 (first_untrusted_None _ _) Hnone).
      * rewrite evaluate_first, Hnone. reflexivity.
    + unfold build_response. rewrite Hreq. intros [= <-]. simpl.
      intros [= <-]. discriminate.
Qed.

End HandlerCases.

(** ** Further worked examples *)

Module MoreRuns.

Import Examples Inputs.

Lemma X1_witness :
  Handler (codec := codec_pod [app]) server1 newResponseWriter
          (http_no_body "/validate")
  = Return {| status := Some 400; written := "empty data body" ++ newline |}
  /\ Handler (codec := codec_pod [app]) server1 newResponseWriter
             (http_broken_body "/validate")
     = Return {| status := Some 400;
                 written := "empty data body" ++ newline |}.
Proof.
  split.
  - apply (X1_empty_body_refused (codec := codec_pod [app]) server1
             (http_no_body "/validate")).
    left. reflexivity.
  - apply (X1_empty_body_refused (codec := codec_pod [app]) server1
             (http_broken_body "/validate")).
    right. left. exists "{", "unexpected EOF". reflexivity.
Defined.

(** A rejection with code 403 is sent with status 200. *)
Lemma X3_witness :
  let w := {| status := Some 200;
              written :=
                render_review {|
                  APIVersion := "admission.k8s.io/v1";
                  Kind := "AdmissionReview";
                  Request := None;
                  Response := Some {|
                    Resp_UID := "705ab4f5-6393-11e8-b7cc-42010a800002";
                    Allowed := false;
                    Result := Some {|
                      Message := "evil.com/malware:latest image comes from untrusted registry! Only images form [gcr.io/myorg/] are allowed.";
                      Code := 403 |} |} |} |} in
  outer_status w = 200 \/ outer_status w = 400.
Proof.
  intros w.
  apply (X3_transport_status_200_or_400
           (codec := codec_pod [malware]) server1
           (http_post "/validate" "application/json" "{}") w).
  reflexivity.
Defined.

Lemma X4_witness :
  Handler (codec := codec_marshal_fails) server1 newResponseWriter
          (http_post "/validate" "application/json" "{}")
  = Return {| status := Some 400;
              written := ("Can't encode response: "
                          ++ "json: unsupported value") ++ newline |}.
Proof.
  apply (X4_encode_failure_is_400
           (codec := codec_marshal_fails) server1
           (http_post "/validate" "application/json" "{}")
           {| APIVersion := "admission.k8s.io/v1";
              Kind := "AdmissionReview";
              Request := None;
              Response := Some {|
                Resp_UID := "705ab4f5-6393-11e8-b7cc-42010a800002";
                Allowed := true;
                Result := Some {| Message := ""; Code := 200 |} |} |}
           "json: unsupported value").
  - discriminate.
  - reflexivity.
  - reflexivity.
  - reflexivity.
Defined.

Lemma X5_witness :
  reply (codec := codec_no_request) server1 "/mutate" "{}"
  = Return {| APIVersion := "admission.k8s.io/v1";
              Kind := "AdmissionReview";
              Request := None;
              Response := None |}.
Proof.
  apply (X5_other_paths_no_response
           (codec := codec_no_request) server1 "/mutate" "{}"
           review_no_request).
  - discriminate.
  - reflexivity.
Defined.

Lemma X6_witness :
  Handler (codec := codec_pod [nginx; malware]) server1 newResponseWriter
          (http_post "/validate" "application/json" "{}")
  = Return {|
      status := Some 200;
      written :=
        render_review {|
          APIVersion := "admission.k8s.io/v1";
          Kind := "AdmissionReview";
          Request := None;
          Response := Some {|
            Resp_UID := "705ab4f5-6393-11e8-b7cc-42010a800002";
            Allowed := false;
            Result := Some {|
              Message := "docker.io/library/nginx:1.21 image comes from untrusted registry! Only images form [gcr.io/myorg/] are allowed.";
              Code := 403 |} |} |} |}.
Proof.
  apply (X6_validate_end_to_end
           (codec := codec_pod [nginx; malware]) server1
           (http_post "/validate" "application/json" "{}")
           review1 request1 (pod_of [nginx; malware]));
    [discriminate | reflexivity ..].
Defined.

Lemma X8_witness :
  evaluate server2' (pod_of [app])
  = {| Resp_UID := "";
       Allowed := true;
       Result := Some {| Code := 200; Message := "" |} |}.
Proof.
  apply (X8_larger_whitelist_keeps_allowed server1 server2' (pod_of [app])).
  - intros reg [<-|[]]. simpl. auto.
  - reflexivity.
Defined.

Lemma X9_witness :
  same_verdict (WhiteListRegistries server2)
               (WhiteListRegistries server_repeated)
               (evaluate server2 (pod_of [nginx; malware]))
               (evaluate server_repeated (pod_of [nginx; malware])).
Proof.
  apply (X9_whitelist_is_a_set server2 server_repeated
           (pod_of [nginx; malware])).
  - intros reg [<-|[<-|[]]]; simpl; auto.
  - intros reg [<-|[<-|[<-|[]]]]; simpl; auto.
Defined.

Lemma X10_witness :
  evaluate server1 (pod_of [app]) = evaluate server1 (pod_of [app']).
Proof.
  apply (X10_only_images_matter server1 (pod_of [app]) (pod_of [app'])).
  reflexivity.
Defined.

Lemma X13_witness :
  "/validate" = "/validate"
  /\ exists ar req pod,
       Decode (Codec := codec_pod [app]) "{}" = (ar, None)
       /\ Request ar = Some req
       /\ Unmarshal_Pod (Codec := codec_pod [app]) (Object_Raw req) = inl pod
       /\ (forall c, In c (Containers (Spec pod)) ->
             exists reg, In reg (WhiteListRegistries server1)
                         /\ IsPrefix reg (Image c))
       /\ "705ab4f5-6393-11e8-b7cc-42010a800002" = UID req
       /\ Some {| Message := ""; Code := 200 |}
          = Some {| Message := ""; Code := 200 |}.
Proof.
  apply (X13_allowed_only_when_whitelisted
           (codec := codec_pod [app]) server1 "/validate" "{}"
           {| APIVersion := "admission.k8s.io/v1";
              Kind := "AdmissionReview";
              Request := None;
              Response := Some {|
                Resp_UID := "705ab4f5-6393-11e8-b7cc-42010a800002";
                Allowed := true;
                Result := Some {| Message := ""; Code := 200 |} |} |}
           {| Resp_UID := "705ab4f5-6393-11e8-b7cc-42010a800002";
              Allowed := true;
              Result := Some {| Message := ""; Code := 200 |} |}).
  - reflexivity.
  - reflexivity.
  - reflexivity.
Defined.

Lemma X14_witness :
  same_verdict ["gcr.io/myorg/"; "gcr.io/"] ["gcr.io/"]
               (evaluate server_gcr' (pod_of [app; malware]))
               (evaluate server_gcr (pod_of [app; malware])).
Proof.
  apply (X14_longer_registry_is_redundant
           ["gcr.io/"] "gcr.io/" "gcr.io/myorg/" (pod_of [app; malware])).
  - simpl. auto.
  - exists "myorg/". reflexivity.
Defined.

End MoreRuns.
